(** * blacspp: typed send/receive dispatch over BLACS

    A shallow embedding of [include/blacspp/broadcast.hpp].  The header is a
    set of overloaded function templates; each of them converts its
    enumerated parameters to string tokens and forwards to one entry point
    of the [wrappers] namespace.

    Two stages are kept apart, as in C++:
    - build time: overload resolution and template instantiation.  A call
      that does not compile is [None]; a call that compiles is [Some] of
      the action it runs.
    - run time: an action is a state transformer over the [World] of the
      calling process (its memory, its grid objects, the state of the
      communication library and the log of raw library calls). *)

From Stdlib Require Import ZArith NArith List String Bool Lia.
Import ListNotations.
Local Open Scope Z_scope.

(** ** Plain data *)

(** A buffer address.  [T* A] is an element type together with a [ptr];
    the null pointer is [0]. *)
Definition ptr := Z.

(** Byte-addressed memory of the calling process. *)
Definition Mem := ptr -> Byte.byte.

(** [blacs_int] is a signed machine integer; its width is fixed by
    [blacspp/types.hpp] (see [blacs_int_bits] below). *)
Definition blacs_int := Z.

(** Identity of a [Grid] object: what a [const Grid&] refers to. *)
Definition GridRef := nat.

(** Modelled from the spec: the enumerations of [blacspp/types.hpp], which
    is not under src/.  The spec names the variants: a scope is "row,
    column, or all", a triangle is the upper or lower half, a diagonal is
    unit or not.  It names no variant of [Topology], which stays a
    parameter ([Headers] below). *)
Inductive Scope := All | Row | Column.
Inductive Triangle := Upper | Lower.
Inductive Diagonal := Unit | NonUnit.

(** Modelled from the spec: [detail::type_string] of
    [blacspp/util/type_conversions.hpp], which is not under src/.  The spec
    describes it as the conversion of an enumerated value to "the exact
    string token the underlying library expects", overloaded on the
    enumeration.  The tokens themselves are given neither by the spec nor
    by the sources, so each overload is a parameter ([Headers] below). *)
Class TypeString (E : Type) := type_string : E -> string.

(** What [broadcast.hpp] includes and src/ does not hold. *)
Class Headers := {
  (** [blacspp/types.hpp]: the width of [blacs_int], and [Topology]. *)
  blacs_int_bits : positive;
  Topology : Type;
  (** [blacspp/grid.hpp]: a grid object and its [context()] accessor. *)
  Grid : Type;
  context : Grid -> blacs_int;
  (** The C++ types a buffer may hold, and [detail::blacs_supported<T>]. *)
  CType : Type;
  blacs_supported : CType -> bool;
  (** [blacspp/util/type_conversions.hpp]. *)
  type_string_Scope :: TypeString Scope;
  type_string_Topology :: TypeString Topology;
  type_string_Triangle :: TypeString Triangle;
  type_string_Diagonal :: TypeString Diagonal
}.

(** A raw call into the [wrappers] namespace, as the library receives it:
    context handle, tokens, shape, buffer address, leading dimension. *)
Inductive Call `{Headers} :=
| gebs2d_call (T : CType) (ctx : blacs_int) (SCOPE TOP : string)
              (M N : blacs_int) (A : ptr) (LDA : blacs_int)
| trbs2d_call (T : CType) (ctx : blacs_int) (SCOPE TOP UPLO DIAG : string)
              (M N : blacs_int) (A : ptr) (LDA : blacs_int)
| gebr2d_call (T : CType) (ctx : blacs_int) (SCOPE TOP : string)
              (M N : blacs_int) (A : ptr) (LDA : blacs_int)
| trbr2d_call (T : CType) (ctx : blacs_int) (SCOPE TOP UPLO DIAG : string)
              (M N : blacs_int) (A : ptr) (LDA : blacs_int).

(** The communication library behind [wrappers].  It is external and
    opaque: a send reads the caller's memory (its buffer is [const T*]) and
    changes the library's own state; a receive may also store into the
    caller's memory. *)
Class Library `{Headers} := {
  Net : Type;
  blacs_send : Call -> Mem -> Net -> Net;
  blacs_recv : Call -> Mem -> Net -> Mem * Net
}.

(** ** The state of the calling process *)

Record World `{Library} := mkWorld {
  grids : GridRef -> Grid;
  mem : Mem;
  net : Net;
  calls : list Call
}.
Arguments mkWorld {_ _} grids mem net calls.

(** Run-time actions. *)
Definition Blacs `{Library} (R : Type) : Type := World -> R * World.

Definition ret `{Library} {R} (r : R) : Blacs R := fun w => (r, w).

Definition bind `{Library} {R S} (c : Blacs R) (k : R -> Blacs S) : Blacs S :=
  fun w => let (r, w') := c w in k r w'.

Declare Scope blacs_scope.
Delimit Scope blacs_scope with blacs.
Notation "x <- c ;; k" := (bind c (fun x => k))
  (at level 61, c at next level, right associativity) : blacs_scope.

Definition exec `{Library} {R} (c : Blacs R) (w : World) : World := snd (c w).

(** [grid.context()] on a [const Grid&]. *)
Definition grid_context `{Library} (grid : GridRef) : Blacs blacs_int :=
  fun w => (context (grids w grid), w).

(** ** Conversions at a call *)

Definition blacs_int_max `{Headers} : Z := 2 ^ (Z.pos blacs_int_bits - 1) - 1.

(** [std::size_t] to [blacs_int], the implicit conversion at a call whose
    parameter is a [blacs_int]: the value modulo [2^w], read as a signed
    [w]-bit integer. *)
Definition to_blacs_int `{Headers} (n : N) : blacs_int :=
  let m := Z.of_N n mod 2 ^ Z.pos blacs_int_bits in
  if m <=? blacs_int_max then m else m - 2 ^ Z.pos blacs_int_bits.

(** ** Buffers *)

(** An object of class type passed as the buffer.  [data] is [None] when
    the class has no [data()] member and else what [A.data()] returns, a
    typed pointer; [size] is [None] when the class has no [size()] member
    and else what [A.size()] returns, a [std::size_t]. *)
Record Container `{Headers} := mkContainer {
  data : option (CType * ptr);
  size : option N
}.
Arguments mkContainer {_} data size.

(** Modelled from the spec: [detail::has_data_member_v] and
    [detail::has_size_member_v], declared in a header that is not under
    src/: whether the container is one "exposing element access", and one
    exposing a size. *)
Definition has_data_member_v `{Headers} (A : Container) : bool :=
  match data A with Some _ => true | None => false end.

Definition has_size_member_v `{Headers} (A : Container) : bool :=
  match size A with Some _ => true | None => false end.

(** What a call site passes as the buffer: a raw pointer or an object,
    and whether the elements can be written through it.
    - [Pointer T A] is a [T*], a pointer to non-const [T];
    - [Object A] is a non-const lvalue of class type whose [data()], if it
      has one, is a [T*];
    - [ConstPointer T A] is a [const T*];
    - [ConstObject A] is an object through which the elements are
      read-only: a const container, a temporary, or a view of const
      elements; its [data()], if it has one, is a [const T*].
    The senders take [const T*] and [const Container&] and accept all
    four; the receivers take [T*] and [Container&]. *)
Inductive Buffer `{Headers} :=
| Pointer (T : CType) (A : ptr)
| Object (A : Container)
| ConstPointer (T : CType) (A : ptr)
| ConstObject (A : Container).

(** The two call shapes of the header: shape spelled out, or left to be
    deduced from the buffer. *)
Inductive Shape `{Headers} :=
| Shaped (M N : blacs_int) (A : Buffer) (LDA : blacs_int)
| Sized (A : Buffer).

(** ** namespace wrappers *)

Module wrappers.
Section EntryPoints.
Context `{Library}.

(** Modelled from the spec: the entry points of
    [blacspp/wrappers/broadcast.hpp], which is not under src/.  The spec
    has them "invoked with: context handle, scope token, topology token,
    (triangle/diagonal tokens where applicable), row count, column count,
    buffer pointer, leading dimension".  Each records the call and hands it
    to the library; the senders take the buffer as [const T*]. *)
Definition send (c : Call) : Blacs unit :=
  fun w => (tt, mkWorld (grids w) (mem w) (blacs_send c (mem w) (net w))
                        (calls w ++ [c])).

Definition recv (c : Call) : Blacs unit :=
  fun w => let (m, n) := blacs_recv c (mem w) (net w) in
           (tt, mkWorld (grids w) m n (calls w ++ [c])).

Definition gebs2d T ctx SCOPE TOP M N A LDA : Blacs unit :=
  send (gebs2d_call T ctx SCOPE TOP M N A LDA).

Definition trbs2d T ctx SCOPE TOP UPLO DIAG M N A LDA : Blacs unit :=
  send (trbs2d_call T ctx SCOPE TOP UPLO DIAG M N A LDA).

Definition gebr2d T ctx SCOPE TOP M N A LDA : Blacs unit :=
  recv (gebr2d_call T ctx SCOPE TOP M N A LDA).

Definition trbr2d T ctx SCOPE TOP UPLO DIAG M N A LDA : Blacs unit :=
  recv (trbr2d_call T ctx SCOPE TOP UPLO DIAG M N A LDA).

End EntryPoints.
End wrappers.

(** ** namespace blacspp: the templates of broadcast.hpp *)

Section Broadcast.
Context `{Library}.
Local Open Scope blacs_scope.

(** Modelled from the spec: [detail::enable_if_blacs_supported_t<T>], the
    return type of the pointer overloads, declared in a header that is not
    under src/.  The spec has it as "compile-time type-capability gating
    (enable-if style constraints)": the template is instantiated for a
    supported [T] and is no candidate for any other. *)
Definition enable_if_blacs_supported_t (T : CType) (body : Blacs unit)
  : option (Blacs unit) :=
  if blacs_supported T then Some body else None.

(** [std::enable_if_t<cond>] as a return type. *)
Definition enable_if_t (cond : bool) (body : option (Blacs unit))
  : option (Blacs unit) :=
  if cond then body else None.

(** *** gebs2d *)

Definition gebs2d_ptr (grid : GridRef) (scope : Scope) (top : Topology)
    (M N : blacs_int) (T : CType) (A : ptr) (LDA : blacs_int)
  : option (Blacs unit) :=
  enable_if_blacs_supported_t T
    (let SCOPE := type_string scope in
     let TOP := type_string top in
     ctx <- grid_context grid ;;
     wrappers.gebs2d T ctx SCOPE TOP M N A LDA).

Definition gebs2d_container (grid : GridRef) (scope : Scope) (top : Topology)
    (M N : blacs_int) (A : Container) (LDA : blacs_int)
  : option (Blacs unit) :=
  enable_if_t (has_data_member_v A)
    match data A with
    | Some (T, p) => gebs2d_ptr grid scope top M N T p LDA
    | None => None
    end.

Definition gebs2d_sized (grid : GridRef) (scope : Scope) (top : Topology)
    (A : Container) : option (Blacs unit) :=
  enable_if_t (has_size_member_v A)
    match size A with
    | Some n =>
        gebs2d_container grid scope top (to_blacs_int n) 1 A (to_blacs_int n)
    | None => None
    end.

(** The overload set [gebs2d]: which template a call site selects.  The
    buffer parameters are [const T*] and [const Container&], which take a
    const argument as they take any other. *)
Definition gebs2d (grid : GridRef) (scope : Scope) (top : Topology)
    (args : Shape) : option (Blacs unit) :=
  match args with
  | Shaped M N (Pointer T A) LDA
  | Shaped M N (ConstPointer T A) LDA =>
      gebs2d_ptr grid scope top M N T A LDA
  | Shaped M N (Object A) LDA
  | Shaped M N (ConstObject A) LDA =>
      gebs2d_container grid scope top M N A LDA
  | Sized (Object A)
  | Sized (ConstObject A) => gebs2d_sized grid scope top A
  | Sized (Pointer _ _)
  | Sized (ConstPointer _ _) => None
  end.

(** *** trbs2d *)

Definition trbs2d_ptr (grid : GridRef) (scope : Scope) (top : Topology)
    (uplo : Triangle) (diag : Diagonal)
    (M N : blacs_int) (T : CType) (A : ptr) (LDA : blacs_int)
  : option (Blacs unit) :=
  enable_if_blacs_supported_t T
    (let SCOPE := type_string scope in
     let TOP := type_string top in
     let UPLO := type_string uplo in
     let DIAG := type_string diag in
     ctx <- grid_context grid ;;
     wrappers.trbs2d T ctx SCOPE TOP UPLO DIAG M N A LDA).

Definition trbs2d_container (grid : GridRef) (scope : Scope) (top : Topology)
    (uplo : Triangle) (diag : Diagonal)
    (M N : blacs_int) (A : Container) (LDA : blacs_int)
  : option (Blacs unit) :=
  enable_if_t (has_data_member_v A)
    match data A with
    | Some (T, p) => trbs2d_ptr grid scope top uplo diag M N T p LDA
    | None => None
    end.

(** The overload set [trbs2d]: the header declares no template of it that
    takes the buffer alone. *)
Definition trbs2d (grid : GridRef) (scope : Scope) (top : Topology)
    (uplo : Triangle) (diag : Diagonal) (args : Shape)
  : option (Blacs unit) :=
  match args with
  | Shaped M N (Pointer T A) LDA
  | Shaped M N (ConstPointer T A) LDA =>
      trbs2d_ptr grid scope top uplo diag M N T A LDA
  | Shaped M N (Object A) LDA
  | Shaped M N (ConstObject A) LDA =>
      trbs2d_container grid scope top uplo diag M N A LDA
  | Sized _ => None
  end.

(** *** gebr2d *)

Definition gebr2d_ptr (grid : GridRef) (scope : Scope) (top : Topology)
    (M N : blacs_int) (T : CType) (A : ptr) (LDA : blacs_int)
  : option (Blacs unit) :=
  enable_if_blacs_supported_t T
    (let SCOPE := type_string scope in
     let TOP := type_string top in
     ctx <- grid_context grid ;;
     wrappers.gebr2d T ctx SCOPE TOP M N A LDA).

Definition gebr2d_container (grid : GridRef) (scope : Scope) (top : Topology)
    (M N : blacs_int) (A : Container) (LDA : blacs_int)
  : option (Blacs unit) :=
  enable_if_t (has_data_member_v A)
    match data A with
    | Some (T, p) => gebr2d_ptr grid scope top M N T p LDA
    | None => None
    end.

Definition gebr2d_sized (grid : GridRef) (scope : Scope) (top : Topology)
    (A : Container) : option (Blacs unit) :=
  enable_if_t (has_size_member_v A)
    match size A with
    | Some n =>
        gebr2d_container grid scope top (to_blacs_int n) 1 A (to_blacs_int n)
    | None => None
    end.

(** The overload set [gebr2d].  The buffer parameters are [T*] and
    [Container&].  A [const U*] makes the pointer template deduce
    [T = const U], which is no BLACS-supported type; a const container or a
    view reaches the same pointer template through its [data()]; a
    temporary does not bind to [Container&].  None of them compiles. *)
Definition gebr2d (grid : GridRef) (scope : Scope) (top : Topology)
    (args : Shape) : option (Blacs unit) :=
  match args with
  | Shaped M N (Pointer T A) LDA => gebr2d_ptr grid scope top M N T A LDA
  | Shaped M N (Object A) LDA => gebr2d_container grid scope top M N A LDA
  | Sized (Object A) => gebr2d_sized grid scope top A
  | Sized (Pointer _ _) => None
  | Shaped _ _ (ConstPointer _ _) _
  | Shaped _ _ (ConstObject _) _
  | Sized (ConstPointer _ _)
  | Sized (ConstObject _) => None
  end.

(** *** trbr2d *)

Definition trbr2d_ptr (grid : GridRef) (scope : Scope) (top : Topology)
    (uplo : Triangle) (diag : Diagonal)
    (M N : blacs_int) (T : CType) (A : ptr) (LDA : blacs_int)
  : option (Blacs unit) :=
  enable_if_blacs_supported_t T
    (let SCOPE := type_string scope in
     let TOP := type_string top in
     let UPLO := type_string uplo in
     let DIAG := type_string diag in
     ctx <- grid_context grid ;;
     wrappers.trbr2d T ctx SCOPE TOP UPLO DIAG M N A LDA).

Definition trbr2d_container (grid : GridRef) (scope : Scope) (top : Topology)
    (uplo : Triangle) (diag : Diagonal)
    (M N : blacs_int) (A : Container) (LDA : blacs_int)
  : option (Blacs unit) :=
  enable_if_t (has_data_member_v A)
    match data A with
    | Some (T, p) => trbr2d_ptr grid scope top uplo diag M N T p LDA
    | None => None
    end.

(** The overload set [trbr2d]: [T*] and [Container&] as for [gebr2d], and
    no template that takes the buffer alone. *)
Definition trbr2d (grid : GridRef) (scope : Scope) (top : Topology)
    (uplo : Triangle) (diag : Diagonal) (args : Shape)
  : option (Blacs unit) :=
  match args with
  | Shaped M N (Pointer T A) LDA =>
      trbr2d_ptr grid scope top uplo diag M N T A LDA
  | Shaped M N (Object A) LDA =>
      trbr2d_container grid scope top uplo diag M N A LDA
  | Shaped _ _ (ConstPointer _ _) _
  | Shaped _ _ (ConstObject _) _ => None
  | Sized _ => None
  end.

End Broadcast.

(** ** Calls in sequence, and calls in pairs *)

Section Programs.
Context `{Library}.
Local Open Scope blacs_scope.

(** Statements run one after the other, as in the body of a caller. *)
Fixpoint run_all (acts : list (Blacs unit)) : Blacs unit :=
  match acts with
  | [] => ret tt
  | a :: rest => _ <- a ;; run_all rest
  end.

(** [act] is what some call to one of the four operations compiles to. *)
Definition is_call (act : Blacs unit) : Prop :=
  exists grid scope top uplo diag args,
    gebs2d grid scope top args = Some act \/
    trbs2d grid scope top uplo diag args = Some act \/
    gebr2d grid scope top args = Some act \/
    trbr2d grid scope top uplo diag args = Some act.

(** [act] is what some call to one of the two senders compiles to. *)
Definition is_send (act : Blacs unit) : Prop :=
  exists grid scope top uplo diag args,
    gebs2d grid scope top args = Some act \/
    trbs2d grid scope top uplo diag args = Some act.




End Programs.

(** ** A concrete platform: a loop-back library

    One instance of [Headers] and [Library] on which the definitions run:
    a 32-bit [blacs_int], a handful of element types, and a library whose
    transport is a byte queue inside the process (what is sent is what the
    next receive stores). *)

Module LoopBack.

Inductive ctype :=
| c_int | c_float | c_double | c_complex_float | c_complex_double | c_char.

Definition supported (T : ctype) : bool :=
  match T with c_char => false | _ => true end.

Definition sizeof (T : ctype) : Z :=
  match T with
  | c_char => 1
  | c_int | c_float => 4
  | c_double | c_complex_float => 8
  | c_complex_double => 16
  end.

Inductive topology := DefaultTopology | IncreasingRing | DecreasingRing.

Record grid := mkGrid { handle : blacs_int; nprow : Z; npcol : Z }.

Definition headers : Headers := {|
  blacs_int_bits := 32;
  Topology := topology;
  Grid := grid;
  context := handle;
  CType := ctype;
  blacs_supported := supported;
  type_string_Scope := fun s =>
    match s with All => "A" | Row => "R" | Column => "C" end%string;
  type_string_Topology := fun t =>
    match t with
    | DefaultTopology => " " | IncreasingRing => "I" | DecreasingRing => "D"
    end%string;
  type_string_Triangle := fun u =>
    match u with Upper => "U" | Lower => "L" end%string;
  type_string_Diagonal := fun d =>
    match d with Unit => "U" | NonUnit => "N" end%string
|}.

(** Entries [(i, j)] of an [M] by [N] matrix, column by column. *)
Definition cells (M N : Z) : list (Z * Z) :=
  flat_map (fun j => map (fun i => (Z.of_nat i, Z.of_nat j))
                         (seq 0 (Z.to_nat M)))
           (seq 0 (Z.to_nat N)).

(** Addresses of the bytes of entry [(i, j)] of a column-major buffer. *)
Definition bytes_of (T : ctype) (A : ptr) (LDA : Z) (ij : Z * Z) : list ptr :=
  map (fun b => A + (fst ij + snd ij * LDA) * sizeof T + Z.of_nat b)
      (seq 0 (Z.to_nat (sizeof T))).

Definition selected (UPLO DIAG : string) (ij : Z * Z) : bool :=
  let (i, j) := ij in
  if String.eqb UPLO "U"
  then (if String.eqb DIAG "U" then i <? j else i <=? j)
  else (if String.eqb DIAG "U" then j <? i else j <=? i).

Definition region (c : @Call headers) : list ptr :=
  match c with
  | gebs2d_call T _ _ _ M N A LDA
  | gebr2d_call T _ _ _ M N A LDA =>
      flat_map (bytes_of T A LDA) (cells M N)
  | trbs2d_call T _ _ _ UPLO DIAG M N A LDA
  | trbr2d_call T _ _ _ UPLO DIAG M N A LDA =>
      flat_map (bytes_of T A LDA) (filter (selected UPLO DIAG) (cells M N))
  end.

Definition store (m : Mem) (p : ptr) (b : Byte.byte) : Mem :=
  fun q => if q =? p then b else m q.

Fixpoint store_all (m : Mem) (ps : list ptr) (bs : list Byte.byte)
  : Mem * list Byte.byte :=
  match ps, bs with
  | p :: ps', b :: bs' => store_all (store m p b) ps' bs'
  | _, _ => (m, bs)
  end.

Definition library : @Library headers := {|
  Net := list Byte.byte;
  blacs_send := fun c m q => q ++ map m (region c);
  blacs_recv := fun c m q => store_all m (region c) q
|}.

(** The offset of byte [b] of entry [(i, j)] from the start of a
    column-major buffer of leading dimension [LDA]. *)
Definition offset (T : ctype) (LDA i j b : Z) : Z :=
  (i + j * LDA) * sizeof T + b.

(** What the tokens mean to the loop-back library: the half of the
    matrix a triangle names, with or without the diagonal. *)
Definition in_triangle (uplo : Triangle) (diag : Diagonal) (i j : Z) : bool :=
  match uplo, diag with
  | Upper, NonUnit => i <=? j
  | Upper, Unit => i <? j
  | Lower, NonUnit => j <=? i
  | Lower, Unit => j <? i
  end.

(** Two processes share the transport and nothing else: the receiving
    process [wr] at the moment the transport is as the sending process
    left it in [ws]. *)
Definition deliver (ws wr : @World headers library) : @World headers library :=
  @mkWorld headers library (grids wr) (mem wr) (net ws) (calls wr).

(** Sample inputs. *)
Definition grid0 : grid := mkGrid 0 2 2.

Definition memory0 : Mem :=
  fun p => if p =? 64 then Byte.x2a else if p =? 65 then Byte.x07 else Byte.x00.

Definition world0 : @World headers library :=
  @mkWorld headers library (fun _ => grid0) memory0 [] [].

(** The same process with sixteen bytes waiting in the transport. *)
Definition world_pending : @World headers library :=
  @mkWorld headers library (fun _ => grid0) memory0 (repeat Byte.xff 16) [].

(** A [std::vector<double>] of three elements at address 64. *)
Definition vec3 : @Container headers :=
  @mkContainer headers (Some (c_double, 64)) (Some 3%N).

(** A [std::vector<double>] of [2^31] elements. *)
Definition vec_huge : @Container headers :=
  @mkContainer headers (Some (c_double, 64)) (Some 2147483648%N).

(** A [std::vector<double>] of [2^32 + 3] elements. *)
Definition vec_alias : @Container headers :=
  @mkContainer headers (Some (c_double, 64)) (Some 4294967299%N).

(** A [std::set<double>]: a size and no [data()]. *)
Definition set3 : @Container headers := @mkContainer headers None (Some 3%N).

End LoopBack.

(** * Properties *)

Section Properties.
Context {hdr : Headers} {lib : Library}.
Local Open Scope blacs_scope.

(** ** The raw entry points *)

Lemma calls_recv (c : Call) (w : World) :
  calls (exec (wrappers.recv c) w) = calls w ++ [c].
Proof.
  unfold exec, wrappers.recv.
  destruct (blacs_recv c (mem w) (net w)) as [m n]; reflexivity.
Qed.

Lemma grids_recv (c : Call) (w : World) :
  grids (exec (wrappers.recv c) w) = grids w.
Proof.
  unfold exec, wrappers.recv.
  destruct (blacs_recv c (mem w) (net w)) as [m n]; reflexivity.
Qed.

Lemma mem_recv (c : Call) (w : World) :
  mem (exec (wrappers.recv c) w) = fst (blacs_recv c (mem w) (net w)).
Proof.
  unfold exec, wrappers.recv.
  destruct (blacs_recv c (mem w) (net w)) as [m n]; reflexivity.
Qed.

(** Reading the context handle does not change the world. *)
Lemma bind_grid_context {R} (grid : GridRef) (k : blacs_int -> Blacs R) w :
  (ctx <- grid_context grid ;; k ctx) w = k (context (grids w grid)) w.
Proof. reflexivity. Qed.

(** ** The gate on the element type *)

Lemma enable_if_supported (T : CType) (body : Blacs unit) :
  blacs_supported T = true -> enable_if_blacs_supported_t T body = Some body.
Proof. intros HT; unfold enable_if_blacs_supported_t; now rewrite HT. Qed.

Lemma enable_if_unsupported (T : CType) (body : Blacs unit) :
  enable_if_blacs_supported_t T body = None <-> blacs_supported T = false.
Proof.
  unfold enable_if_blacs_supported_t.
  destruct (blacs_supported T); split; congruence.
Qed.

(** ** The container overloads unfold to the pointer overloads *)

Ltac unfold_overloads :=
  unfold gebs2d_sized, gebr2d_sized, gebs2d_container, gebr2d_container,
    trbs2d_container, trbr2d_container, has_data_member_v, has_size_member_v.

Tactic Notation "unfold_overloads" "in" hyp(H) :=
  unfold gebs2d_sized, gebr2d_sized, gebs2d_container, gebr2d_container,
    trbs2d_container, trbr2d_container, has_data_member_v, has_size_member_v
    in H.

Lemma gebs2d_container_data grid scope top M N A LDA T p :
  data A = Some (T, p) ->
  gebs2d_container grid scope top M N A LDA
  = gebs2d_ptr grid scope top M N T p LDA.
Proof. intros HA; unfold_overloads; now rewrite HA. Qed.

Lemma gebr2d_container_data grid scope top M N A LDA T p :
  data A = Some (T, p) ->
  gebr2d_container grid scope top M N A LDA
  = gebr2d_ptr grid scope top M N T p LDA.
Proof. intros HA; unfold_overloads; now rewrite HA. Qed.

Lemma trbs2d_container_data grid scope top uplo diag M N A LDA T p :
  data A = Some (T, p) ->
  trbs2d_container grid scope top uplo diag M N A LDA
  = trbs2d_ptr grid scope top uplo diag M N T p LDA.
Proof. intros HA; unfold_overloads; now rewrite HA. Qed.

Lemma trbr2d_container_data grid scope top uplo diag M N A LDA T p :
  data A = Some (T, p) ->
  trbr2d_container grid scope top uplo diag M N A LDA
  = trbr2d_ptr grid scope top uplo diag M N T p LDA.
Proof. intros HA; unfold_overloads; now rewrite HA. Qed.

Lemma gebs2d_sized_size grid scope top A n :
  size A = Some n ->
  gebs2d_sized grid scope top A
  = gebs2d_container grid scope top (to_blacs_int n) 1 A (to_blacs_int n).
Proof. intros HA; unfold gebs2d_sized, has_size_member_v; now rewrite HA. Qed.

Lemma gebr2d_sized_size grid scope top A n :
  size A = Some n ->
  gebr2d_sized grid scope top A
  = gebr2d_container grid scope top (to_blacs_int n) 1 A (to_blacs_int n).
Proof. intros HA; unfold gebr2d_sized, has_size_member_v; now rewrite HA. Qed.

(** ** What a pointer overload runs *)

(** For a supported type the gate is open and the body is the action. *)
Ltac open_gate HT :=
  unfold gebs2d_ptr, trbs2d_ptr, gebr2d_ptr, trbr2d_ptr;
  rewrite (enable_if_supported _ _ HT);
  eexists; split; [reflexivity | intros ?; apply bind_grid_context].

Lemma gebs2d_ptr_runs grid scope top M N T A LDA :
  blacs_supported T = true ->
  exists act,
    gebs2d_ptr grid scope top M N T A LDA = Some act /\
    forall w,
      act w = wrappers.gebs2d T (context (grids w grid)) (type_string scope)
                (type_string top) M N A LDA w.
Proof. intros HT; open_gate HT. Qed.

Lemma gebr2d_ptr_runs grid scope top M N T A LDA :
  blacs_supported T = true ->
  exists act,
    gebr2d_ptr grid scope top M N T A LDA = Some act /\
    forall w,
      act w = wrappers.gebr2d T (context (grids w grid)) (type_string scope)
                (type_string top) M N A LDA w.
Proof. intros HT; open_gate HT. Qed.

Lemma trbs2d_ptr_runs grid scope top uplo diag M N T A LDA :
  blacs_supported T = true ->
  exists act,
    trbs2d_ptr grid scope top uplo diag M N T A LDA = Some act /\
    forall w,
      act w = wrappers.trbs2d T (context (grids w grid)) (type_string scope)
                (type_string top) (type_string uplo) (type_string diag)
                M N A LDA w.
Proof. intros HT; open_gate HT. Qed.

Lemma trbr2d_ptr_runs grid scope top uplo diag M N T A LDA :
  blacs_supported T = true ->
  exists act,
    trbr2d_ptr grid scope top uplo diag M N T A LDA = Some act /\
    forall w,
      act w = wrappers.trbr2d T (context (grids w grid)) (type_string scope)
                (type_string top) (type_string uplo) (type_string diag)
                M N A LDA w.
Proof. intros HT; open_gate HT. Qed.

(** Conversely, a pointer overload that compiles went through the gate,
    and its action is the one above. *)
Ltac through_gate :=
  unfold gebs2d_ptr, trbs2d_ptr, gebr2d_ptr, trbr2d_ptr,
    enable_if_blacs_supported_t;
  destruct (blacs_supported _); [|discriminate];
  intros [= <-] ?; apply bind_grid_context.

Lemma gebs2d_ptr_some grid scope top M N T A LDA act :
  gebs2d_ptr grid scope top M N T A LDA = Some act ->
  forall w,
    act w = wrappers.gebs2d T (context (grids w grid)) (type_string scope)
              (type_string top) M N A LDA w.
Proof. through_gate. Qed.

Lemma trbs2d_ptr_some grid scope top uplo diag M N T A LDA act :
  trbs2d_ptr grid scope top uplo diag M N T A LDA = Some act ->
  forall w,
    act w = wrappers.trbs2d T (context (grids w grid)) (type_string scope)
              (type_string top) (type_string uplo) (type_string diag)
              M N A LDA w.
Proof. through_gate. Qed.

Lemma gebr2d_ptr_some grid scope top M N T A LDA act :
  gebr2d_ptr grid scope top M N T A LDA = Some act ->
  forall w,
    act w = wrappers.gebr2d T (context (grids w grid)) (type_string scope)
              (type_string top) M N A LDA w.
Proof. through_gate. Qed.

Lemma trbr2d_ptr_some grid scope top uplo diag M N T A LDA act :
  trbr2d_ptr grid scope top uplo diag M N T A LDA = Some act ->
  forall w,
    act w = wrappers.trbr2d T (context (grids w grid)) (type_string scope)
              (type_string top) (type_string uplo) (type_string diag)
              M N A LDA w.
Proof. through_gate. Qed.

(** ** What any overload runs *)

(** A container or sized overload that compiles found the members it
    asks for; what is left of it is a pointer overload. *)
Ltac down_to_pointer Hact :=
  unfold_overloads in Hact;
  repeat match type of Hact with
    | context [size ?A] =>
        destruct (size A) as [?|]; [|discriminate]; cbn in Hact
    | context [data ?A] =>
        destruct (data A) as [[? ?]|]; [|discriminate]; cbn in Hact
    end.

(** Whatever overload of a sender a call site selects, the action it
    runs is one raw send. *)
Lemma gebs2d_some grid scope top args act :
  gebs2d grid scope top args = Some act ->
  exists T M N p LDA, forall w,
    act w = wrappers.gebs2d T (context (grids w grid)) (type_string scope)
              (type_string top) M N p LDA w.
Proof.
  destruct args as [M N [T p|A|T p|A] LDA|[T p|A|T p|A]]; cbn [gebs2d];
    intros Hact;
    try discriminate; down_to_pointer Hact;
    do 5 eexists; apply gebs2d_ptr_some; exact Hact.
Qed.

Lemma trbs2d_some grid scope top uplo diag args act :
  trbs2d grid scope top uplo diag args = Some act ->
  exists T M N p LDA, forall w,
    act w = wrappers.trbs2d T (context (grids w grid)) (type_string scope)
              (type_string top) (type_string uplo) (type_string diag)
              M N p LDA w.
Proof.
  destruct args as [M N [T p|A|T p|A] LDA|B]; cbn [trbs2d]; intros Hact;
    try discriminate; down_to_pointer Hact;
    do 5 eexists; apply trbs2d_ptr_some; exact Hact.
Qed.

(** The receivers likewise run one raw receive. *)
Lemma gebr2d_some grid scope top args act :
  gebr2d grid scope top args = Some act ->
  exists T M N p LDA, forall w,
    act w = wrappers.gebr2d T (context (grids w grid)) (type_string scope)
              (type_string top) M N p LDA w.
Proof.
  destruct args as [M N [T p|A|T p|A] LDA|[T p|A|T p|A]]; cbn [gebr2d];
    intros Hact;
    try discriminate; down_to_pointer Hact;
    do 5 eexists; apply gebr2d_ptr_some; exact Hact.
Qed.

Lemma trbr2d_some grid scope top uplo diag args act :
  trbr2d grid scope top uplo diag args = Some act ->
  exists T M N p LDA, forall w,
    act w = wrappers.trbr2d T (context (grids w grid)) (type_string scope)
              (type_string top) (type_string uplo) (type_string diag)
              M N p LDA w.
Proof.
  destruct args as [M N [T p|A|T p|A] LDA|B]; cbn [trbr2d]; intros Hact;
    try discriminate; down_to_pointer Hact;
    do 5 eexists; apply trbr2d_ptr_some; exact Hact.
Qed.

(** ** The conversion from [std::size_t] *)

Lemma blacs_int_modulus :
  2 ^ Z.pos blacs_int_bits = 2 * 2 ^ (Z.pos blacs_int_bits - 1)
  /\ 0 < 2 ^ (Z.pos blacs_int_bits - 1).
Proof.
  split.
  - rewrite <- Z.pow_succ_r by lia. f_equal; lia.
  - apply Z.pow_pos_nonneg; lia.
Qed.

Lemma to_blacs_int_range (n : N) :
  - 2 ^ (Z.pos blacs_int_bits - 1) <= to_blacs_int n <= blacs_int_max.
Proof.
  destruct blacs_int_modulus as [Hm Hpos].
  unfold to_blacs_int, blacs_int_max in *.
  pose proof (Z.mod_pos_bound (Z.of_N n) (2 ^ Z.pos blacs_int_bits)) as Hb.
  destruct (Z.leb_spec (Z.of_N n mod 2 ^ Z.pos blacs_int_bits)
                       (2 ^ (Z.pos blacs_int_bits - 1) - 1)); lia.
Qed.

Lemma to_blacs_int_congruent (n : N) :
  (to_blacs_int n - Z.of_N n) mod 2 ^ Z.pos blacs_int_bits = 0.
Proof.
  destruct blacs_int_modulus as [Hm Hpos].
  assert (HP : 2 ^ Z.pos blacs_int_bits <> 0) by lia.
  pose proof (Z.div_mod (Z.of_N n) _ HP) as Hdm.
  unfold to_blacs_int.
  destruct (Z.of_N n mod 2 ^ Z.pos blacs_int_bits <=? blacs_int_max).
  - replace (Z.of_N n mod 2 ^ Z.pos blacs_int_bits - Z.of_N n)
      with (- (Z.of_N n / 2 ^ Z.pos blacs_int_bits) * 2 ^ Z.pos blacs_int_bits)
      by lia.
    now apply Z.mod_mul.
  - replace (Z.of_N n mod 2 ^ Z.pos blacs_int_bits
             - 2 ^ Z.pos blacs_int_bits - Z.of_N n)
      with ((- (Z.of_N n / 2 ^ Z.pos blacs_int_bits) - 1)
            * 2 ^ Z.pos blacs_int_bits) by lia.
    now apply Z.mod_mul.
Qed.

(** A size that fits is passed on as it is. *)
Lemma to_blacs_int_small (n : N) :
  Z.of_N n <= blacs_int_max -> to_blacs_int n = Z.of_N n.
Proof.
  destruct blacs_int_modulus as [Hm Hpos].
  intros Hn; unfold to_blacs_int.
  rewrite Z.mod_small by (unfold blacs_int_max in Hn; lia).
  destruct (Z.leb_spec (Z.of_N n) blacs_int_max); lia.
Qed.

(** ** The claims *)

(** C1.  For a BLACS-supported element type and any grid, scope, topology,
    [M], [N], buffer address and [LDA] (none of them is examined: negative
    shapes and the null pointer are covered), the pointer overload of
    [gebs2d] compiles, and running it is running [wrappers::gebs2d] once on
    [grid.context()], the tokens of scope and topology, and [M], [N], [A],
    [LDA] as given: exactly that call is added to the log.  [gebr2d] does
    the same through [wrappers::gebr2d]. *)
Theorem pointer_general_forwards_once
    grid scope top (M N : blacs_int) (T : CType) (A : ptr) (LDA : blacs_int) :
  blacs_supported T = true ->
  (exists act,
     gebs2d grid scope top (Shaped M N (Pointer T A) LDA) = Some act /\
     forall w,
       act w = wrappers.gebs2d T (context (grids w grid)) (type_string scope)
                 (type_string top) M N A LDA w /\
       calls (exec act w)
       = calls w ++ [gebs2d_call T (context (grids w grid))
                       (type_string scope) (type_string top) M N A LDA]) /\
  (exists act,
     gebr2d grid scope top (Shaped M N (Pointer T A) LDA) = Some act /\
     forall w,
       act w = wrappers.gebr2d T (context (grids w grid)) (type_string scope)
                 (type_string top) M N A LDA w /\
       calls (exec act w)
       = calls w ++ [gebr2d_call T (context (grids w grid))
                       (type_string scope) (type_string top) M N A LDA]).
Proof.
  intros HT; split; cbn [gebs2d gebr2d].
  - destruct (gebs2d_ptr_runs grid scope top M N T A LDA HT) as (act & Ha & Hr).
    exists act; split; [exact Ha|]; intros w; split; [apply Hr|].
    unfold exec; rewrite Hr; reflexivity.
  - destruct (gebr2d_ptr_runs grid scope top M N T A LDA HT) as (act & Ha & Hr).
    exists act; split; [exact Ha|]; intros w; split; [apply Hr|].
    unfold exec; rewrite Hr; apply calls_recv.
Qed.

(** C2.  For a container with a [size()], the call that passes the
    container alone resolves to the very action of the call that spells the
    shape out with rows [A.size()], one column and leading dimension
    [A.size()] on the same container (the size converted to [blacs_int], as
    at any call with that parameter type); so for [gebs2d] and for
    [gebr2d]. *)
Theorem sized_call_is_shaped_call grid scope top (A : Container) (n : N) :
  size A = Some n ->
  gebs2d grid scope top (Sized (Object A))
  = gebs2d grid scope top
      (Shaped (to_blacs_int n) 1 (Object A) (to_blacs_int n)) /\
  gebr2d grid scope top (Sized (Object A))
  = gebr2d grid scope top
      (Shaped (to_blacs_int n) 1 (Object A) (to_blacs_int n)).
Proof.
  intros HA; cbn [gebs2d gebr2d]; split.
  - now apply gebs2d_sized_size.
  - now apply gebr2d_sized_size.
Qed.

(** C4, as the header has it.  For [gebs2d] and [gebr2d], a container that
    has a [size()] (and a [data()] of a supported element type) can be
    passed alone: the call compiles and hands the library the rows
    [A.size()], one column and the leading dimension [A.size()], the size
    converted to [blacs_int].  [trbs2d] and [trbr2d] have no overload that
    takes the buffer alone: such a call does not compile, whatever the
    buffer. *)
Theorem sized_overload_general_only
    grid scope top uplo diag (A : Container) (T : CType) (p : ptr) (n : N) :
  data A = Some (T, p) -> size A = Some n -> blacs_supported T = true ->
  (exists act,
     gebs2d grid scope top (Sized (Object A)) = Some act /\
     forall w,
       calls (exec act w)
       = calls w ++ [gebs2d_call T (context (grids w grid))
                       (type_string scope) (type_string top)
                       (to_blacs_int n) 1 p (to_blacs_int n)]) /\
  (exists act,
     gebr2d grid scope top (Sized (Object A)) = Some act /\
     forall w,
       calls (exec act w)
       = calls w ++ [gebr2d_call T (context (grids w grid))
                       (type_string scope) (type_string top)
                       (to_blacs_int n) 1 p (to_blacs_int n)]) /\
  (forall B, trbs2d grid scope top uplo diag (Sized B) = None) /\
  (forall B, trbr2d grid scope top uplo diag (Sized B) = None).
Proof.
  intros HD HS HT; repeat split; cbn [gebs2d gebr2d].
  - rewrite (gebs2d_sized_size _ _ _ _ _ HS),
            (gebs2d_container_data _ _ _ _ _ _ _ _ _ HD).
    destruct (gebs2d_ptr_runs grid scope top (to_blacs_int n) 1 T p
                (to_blacs_int n) HT) as (act & Ha & Hr).
    exists act; split; [exact Ha|]; intros w.
    unfold exec; rewrite Hr; reflexivity.
  - rewrite (gebr2d_sized_size _ _ _ _ _ HS),
            (gebr2d_container_data _ _ _ _ _ _ _ _ _ HD).
    destruct (gebr2d_ptr_runs grid scope top (to_blacs_int n) 1 T p
                (to_blacs_int n) HT) as (act & Ha & Hr).
    exists act; split; [exact Ha|]; intros w.
    unfold exec; rewrite Hr; apply calls_recv.
Qed.

(** C5.  Each of the four pointer overloads is gated on the element type
    at build time: the call compiles exactly when [T] is BLACS-supported.
    For any other [T] there is no action at all, so nothing is left to
    fail when the program runs. *)
Theorem pointer_overloads_gated
    grid scope top uplo diag (M N : blacs_int) (T : CType) (A : ptr)
    (LDA : blacs_int) :
  (gebs2d grid scope top (Shaped M N (Pointer T A) LDA) = None
   <-> blacs_supported T = false) /\
  (trbs2d grid scope top uplo diag (Shaped M N (Pointer T A) LDA) = None
   <-> blacs_supported T = false) /\
  (gebr2d grid scope top (Shaped M N (Pointer T A) LDA) = None
   <-> blacs_supported T = false) /\
  (trbr2d grid scope top uplo diag (Shaped M N (Pointer T A) LDA) = None
   <-> blacs_supported T = false).
Proof.
  repeat split; cbn [gebs2d trbs2d gebr2d trbr2d];
    unfold gebs2d_ptr, trbs2d_ptr, gebr2d_ptr, trbr2d_ptr;
    apply enable_if_unsupported.
Qed.

(** C8.  For each of [gebs2d], [trbs2d], [gebr2d] and [trbr2d], the call
    on a container with a [data()] member and an explicit shape is the call
    of the pointer overload on [A.data()] with the same grid, enumerated
    parameters and shape. *)
Theorem container_call_is_pointer_call
    grid scope top uplo diag (M N : blacs_int) (A : Container)
    (LDA : blacs_int) (T : CType) (p : ptr) :
  data A = Some (T, p) ->
  gebs2d grid scope top (Shaped M N (Object A) LDA)
  = gebs2d grid scope top (Shaped M N (Pointer T p) LDA) /\
  trbs2d grid scope top uplo diag (Shaped M N (Object A) LDA)
  = trbs2d grid scope top uplo diag (Shaped M N (Pointer T p) LDA) /\
  gebr2d grid scope top (Shaped M N (Object A) LDA)
  = gebr2d grid scope top (Shaped M N (Pointer T p) LDA) /\
  trbr2d grid scope top uplo diag (Shaped M N (Object A) LDA)
  = trbr2d grid scope top uplo diag (Shaped M N (Pointer T p) LDA).
Proof.
  intros HA; cbn [gebs2d trbs2d gebr2d trbr2d]; repeat split.
  - now apply gebs2d_container_data.
  - now apply trbs2d_container_data.
  - now apply gebr2d_container_data.
  - now apply trbr2d_container_data.
Qed.

(** C9.  In the size-based overloads of [gebs2d] and [gebr2d], a container
    whose size exceeds the largest [blacs_int] reaches the library with a
    row count and a leading dimension [m] that is not the size: [m] is
    congruent to the size modulo [2^w] and lies in the signed range of
    [w] bits. *)
Theorem sized_overloads_wrap_large_size
    grid scope top (A : Container) (T : CType) (p : ptr) (n : N) :
  data A = Some (T, p) -> size A = Some n -> blacs_supported T = true ->
  blacs_int_max < Z.of_N n ->
  exists m : blacs_int,
    (m - Z.of_N n) mod 2 ^ Z.pos blacs_int_bits = 0 /\
    - 2 ^ (Z.pos blacs_int_bits - 1) <= m <= blacs_int_max /\
    m <> Z.of_N n /\
    (exists act,
       gebs2d grid scope top (Sized (Object A)) = Some act /\
       forall w,
         calls (exec act w)
         = calls w ++ [gebs2d_call T (context (grids w grid))
                         (type_string scope) (type_string top) m 1 p m]) /\
    (exists act,
       gebr2d grid scope top (Sized (Object A)) = Some act /\
       forall w,
         calls (exec act w)
         = calls w ++ [gebr2d_call T (context (grids w grid))
                         (type_string scope) (type_string top) m 1 p m]).
Proof.
  intros HD HS HT Hbig.
  pose proof (to_blacs_int_range n) as Hrange.
  exists (to_blacs_int n); repeat split; try apply Hrange.
  - apply to_blacs_int_congruent.
  - lia.
  - cbn [gebs2d].
    rewrite (gebs2d_sized_size _ _ _ _ _ HS),
            (gebs2d_container_data _ _ _ _ _ _ _ _ _ HD).
    destruct (gebs2d_ptr_runs grid scope top (to_blacs_int n) 1 T p
                (to_blacs_int n) HT) as (act & Ha & Hr).
    exists act; split; [exact Ha|]; intros w.
    unfold exec; rewrite Hr; reflexivity.
  - cbn [gebr2d].
    rewrite (gebr2d_sized_size _ _ _ _ _ HS),
            (gebr2d_container_data _ _ _ _ _ _ _ _ _ HD).
    destruct (gebr2d_ptr_runs grid scope top (to_blacs_int n) 1 T p
                (to_blacs_int n) HT) as (act & Ha & Hr).
    exists act; split; [exact Ha|]; intros w.
    unfold exec; rewrite Hr; apply calls_recv.
Qed.

(** C10.  A send, [gebs2d] or [trbs2d] through any of their overloads,
    leaves the memory of the caller, and so the buffer, as it was, and
    leaves every grid object as it was. *)
Theorem send_leaves_buffer_and_grid
    grid scope top uplo diag (args : Shape) (act : Blacs unit) (w : World) :
  gebs2d grid scope top args = Some act \/
  trbs2d grid scope top uplo diag args = Some act ->
  mem (exec act w) = mem w /\ grids (exec act w) = grids w.
Proof.
  intros [Hact|Hact].
  - destruct (gebs2d_some _ _ _ _ _ Hact) as (T & M & N & p & LDA & Hr).
    unfold exec; rewrite Hr; split; reflexivity.
  - destruct (trbs2d_some _ _ _ _ _ _ _ Hact) as (T & M & N & p & LDA & Hr).
    unfold exec; rewrite Hr; split; reflexivity.
Qed.

(** ** Further properties of the header *)

(** The pointer overloads of the triangular operations forward as the
    general ones do: for a supported element type, [trbs2d] runs
    [wrappers::trbs2d] once on [grid.context()], the tokens of scope,
    topology, triangle and diagonal in this order, and the shape and buffer
    as given; [trbr2d] does the same through [wrappers::trbr2d]. *)
Theorem pointer_triangular_forwards_once
    grid scope top uplo diag (M N : blacs_int) (T : CType) (A : ptr)
    (LDA : blacs_int) :
  blacs_supported T = true ->
  (exists act,
     trbs2d grid scope top uplo diag (Shaped M N (Pointer T A) LDA)
     = Some act /\
     forall w,
       calls (exec act w)
       = calls w ++ [trbs2d_call T (context (grids w grid))
                       (type_string scope) (type_string top)
                       (type_string uplo) (type_string diag) M N A LDA]) /\
  (exists act,
     trbr2d grid scope top uplo diag (Shaped M N (Pointer T A) LDA)
     = Some act /\
     forall w,
       calls (exec act w)
       = calls w ++ [trbr2d_call T (context (grids w grid))
                       (type_string scope) (type_string top)
                       (type_string uplo) (type_string diag) M N A LDA]).
Proof.
  intros HT; split; cbn [trbs2d trbr2d].
  - destruct (trbs2d_ptr_runs grid scope top uplo diag M N T A LDA HT)
      as (act & Ha & Hr).
    exists act; split; [exact Ha|]; intros w.
    unfold exec; rewrite Hr; reflexivity.
  - destruct (trbr2d_ptr_runs grid scope top uplo diag M N T A LDA HT)
      as (act & Ha & Hr).
    exists act; split; [exact Ha|]; intros w.
    unfold exec; rewrite Hr; apply calls_recv.
Qed.

(** A container whose size fits a [blacs_int] reaches the library with
    its true size as row count and leading dimension. *)
Theorem sized_overloads_keep_small_size
    grid scope top (A : Container) (T : CType) (p : ptr) (n : N) :
  data A = Some (T, p) -> size A = Some n -> blacs_supported T = true ->
  Z.of_N n <= blacs_int_max ->
  (exists act,
     gebs2d grid scope top (Sized (Object A)) = Some act /\
     forall w,
       calls (exec act w)
       = calls w ++ [gebs2d_call T (context (grids w grid))
                       (type_string scope) (type_string top)
                       (Z.of_N n) 1 p (Z.of_N n)]) /\
  (exists act,
     gebr2d grid scope top (Sized (Object A)) = Some act /\
     forall w,
       calls (exec act w)
       = calls w ++ [gebr2d_call T (context (grids w grid))
                       (type_string scope) (type_string top)
                       (Z.of_N n) 1 p (Z.of_N n)]).
Proof.
  intros HD HS HT Hsmall; split; cbn [gebs2d gebr2d].
  - rewrite (gebs2d_sized_size _ _ _ _ _ HS),
            (gebs2d_container_data _ _ _ _ _ _ _ _ _ HD),
            (to_blacs_int_small _ Hsmall).
    destruct (gebs2d_ptr_runs grid scope top (Z.of_N n) 1 T p (Z.of_N n) HT)
      as (act & Ha & Hr).
    exists act; split; [exact Ha|]; intros w.
    unfold exec; rewrite Hr; reflexivity.
  - rewrite (gebr2d_sized_size _ _ _ _ _ HS),
            (gebr2d_container_data _ _ _ _ _ _ _ _ _ HD),
            (to_blacs_int_small _ Hsmall).
    destruct (gebr2d_ptr_runs grid scope top (Z.of_N n) 1 T p (Z.of_N n) HT)
      as (act & Ha & Hr).
    exists act; split; [exact Ha|]; intros w.
    unfold exec; rewrite Hr; apply calls_recv.
Qed.

(** Whatever overload of whichever of the four operations a call site
    selects, the call that compiles makes exactly one raw library call
    and leaves every grid object as it was. *)
Theorem every_call_is_one_raw_call
    grid scope top uplo diag (args : Shape) (act : Blacs unit) (w : World) :
  gebs2d grid scope top args = Some act \/
  trbs2d grid scope top uplo diag args = Some act \/
  gebr2d grid scope top args = Some act \/
  trbr2d grid scope top uplo diag args = Some act ->
  exists c : Call,
    calls (exec act w) = calls w ++ [c] /\ grids (exec act w) = grids w.
Proof.
  intros [Hact|[Hact|[Hact|Hact]]].
  - destruct (gebs2d_some _ _ _ _ _ Hact) as (T & M & N & p & LDA & Hr).
    eexists; unfold exec; rewrite Hr; split; reflexivity.
  - destruct (trbs2d_some _ _ _ _ _ _ _ Hact) as (T & M & N & p & LDA & Hr).
    eexists; unfold exec; rewrite Hr; split; reflexivity.
  - destruct (gebr2d_some _ _ _ _ _ Hact) as (T & M & N & p & LDA & Hr).
    eexists; unfold exec; rewrite Hr; split;
      [apply calls_recv | apply grids_recv].
  - destruct (trbr2d_some _ _ _ _ _ _ _ Hact) as (T & M & N & p & LDA & Hr).
    eexists; unfold exec; rewrite Hr; split;
      [apply calls_recv | apply grids_recv].
Qed.

(** The size-based overloads go through the [data()] overload: a
    container with a [size()] and no [data()] cannot be passed alone, and a
    raw pointer cannot either. *)
Theorem sized_call_needs_data grid scope top (A : Container) (T : CType)
    (p : ptr) :
  data A = None ->
  gebs2d grid scope top (Sized (Object A)) = None /\
  gebr2d grid scope top (Sized (Object A)) = None /\
  gebs2d grid scope top (Sized (Pointer T p)) = None /\
  gebr2d grid scope top (Sized (Pointer T p)) = None.
Proof.
  intros HA; cbn [gebs2d gebr2d].
  unfold gebs2d_sized, gebr2d_sized, gebs2d_container, gebr2d_container,
    has_data_member_v.
  rewrite HA; repeat split; destruct (has_size_member_v A), (size A);
    reflexivity.
Qed.

(** ** The gate, the pairing and the grid through every overload *)




(** A call uses its grid through [context()] alone: on two grid objects
    with the same context handle, a call compiles alike and runs alike. *)
Theorem grid_matters_through_context_only
    g1 g2 scope top uplo diag (args : Shape) (w : World) :
  context (grids w g1) = context (grids w g2) ->
  option_map (fun act => act w) (gebs2d g1 scope top args)
  = option_map (fun act => act w) (gebs2d g2 scope top args) /\
  option_map (fun act => act w) (trbs2d g1 scope top uplo diag args)
  = option_map (fun act => act w) (trbs2d g2 scope top uplo diag args) /\
  option_map (fun act => act w) (gebr2d g1 scope top args)
  = option_map (fun act => act w) (gebr2d g2 scope top args) /\
  option_map (fun act => act w) (trbr2d g1 scope top uplo diag args)
  = option_map (fun act => act w) (trbr2d g2 scope top uplo diag args).
Proof.
  intros Hctx.
  destruct args as [M N [T p|A|T p|A] LDA|[T p|A|T p|A]];
    cbn [gebs2d trbs2d gebr2d trbr2d]; unfold_overloads;
    try destruct (size A) as [n|]; try destruct (data A) as [[T p]|];
    cbn [enable_if_t];
    unfold gebs2d_ptr, trbs2d_ptr, gebr2d_ptr, trbr2d_ptr,
      enable_if_blacs_supported_t;
    try destruct (blacs_supported T);
    cbn [option_map]; rewrite ?bind_grid_context, ?Hctx;
    repeat split.
Qed.

(** A receive stores nothing of its own: after [gebr2d] or [trbr2d],
    through any overload, the memory of the caller and the state of the
    library are what the library returned for the one raw call. *)
Theorem receive_stores_what_library_returns
    grid scope top uplo diag (args : Shape) (act : Blacs unit) (w : World) :
  gebr2d grid scope top args = Some act \/
  trbr2d grid scope top uplo diag args = Some act ->
  exists c : Call,
    calls (exec act w) = calls w ++ [c] /\
    (mem (exec act w), net (exec act w)) = blacs_recv c (mem w) (net w).
Proof.
  intros [Hact|Hact].
  - destruct (gebr2d_some _ _ _ _ _ Hact) as (T & M & N & p & LDA & Hr).
    eexists; unfold exec; rewrite Hr.
    unfold wrappers.gebr2d, wrappers.recv.
    destruct (blacs_recv _ (mem w) (net w)) as [m n] eqn:E; cbn.
    split; [reflexivity | symmetry; exact E].
  - destruct (trbr2d_some _ _ _ _ _ _ _ Hact) as (T & M & N & p & LDA & Hr).
    eexists; unfold exec; rewrite Hr.
    unfold wrappers.trbr2d, wrappers.recv.
    destruct (blacs_recv _ (mem w) (net w)) as [m n] eqn:E; cbn.
    split; [reflexivity | symmetry; exact E].
Qed.

(** ** Sizes that do not fit, exactly *)

Lemma to_blacs_int_wrapped (n : N) :
  blacs_int_max < Z.of_N n < 2 ^ Z.pos blacs_int_bits ->
  to_blacs_int n = Z.of_N n - 2 ^ Z.pos blacs_int_bits.
Proof.
  intros [Hlo Hhi]; unfold to_blacs_int.
  rewrite Z.mod_small by lia.
  destruct (Z.leb_spec (Z.of_N n) blacs_int_max); lia.
Qed.

Lemma to_blacs_int_eq_iff (n m : N) :
  to_blacs_int n = to_blacs_int m
  <-> (Z.of_N n - Z.of_N m) mod 2 ^ Z.pos blacs_int_bits = 0.
Proof.
  destruct blacs_int_modulus as [Hm Hpos].
  assert (HP : 2 ^ Z.pos blacs_int_bits <> 0) by lia.
  pose proof (to_blacs_int_congruent n) as Hn.
  pose proof (to_blacs_int_congruent m) as Hn'.
  pose proof (to_blacs_int_range n) as Rn.
  pose proof (to_blacs_int_range m) as Rm.
  unfold blacs_int_max in Rn, Rm.
  apply Z.mod_divide in Hn, Hn'; try exact HP.
  rewrite Z.mod_divide by exact HP.
  split.
  - intros E; rewrite E in Hn.
    replace (Z.of_N n - Z.of_N m)
      with ((to_blacs_int m - Z.of_N m) - (to_blacs_int m - Z.of_N n))
      by lia.
    now apply Z.divide_sub_r.
  - intros Hd.
    assert (Hdiff : (2 ^ Z.pos blacs_int_bits
                     | to_blacs_int n - to_blacs_int m)).
    { replace (to_blacs_int n - to_blacs_int m)
        with ((to_blacs_int n - Z.of_N n) - (to_blacs_int m - Z.of_N m)
              + (Z.of_N n - Z.of_N m)) by lia.
      apply Z.divide_add_r; [now apply Z.divide_sub_r | exact Hd]. }
    destruct Hdiff as [k Hk].
    assert (k = 0) by nia.
    subst k; lia.
Qed.

(** What the size-based overloads hand to the library. *)
Lemma gebs2d_sized_runs grid scope top A T p n :
  data A = Some (T, p) -> size A = Some n -> blacs_supported T = true ->
  exists act,
    gebs2d grid scope top (Sized (Object A)) = Some act /\
    forall w,
      calls (exec act w)
      = calls w ++ [gebs2d_call T (context (grids w grid))
                      (type_string scope) (type_string top)
                      (to_blacs_int n) 1 p (to_blacs_int n)].
Proof.
  intros HD HS HT; cbn [gebs2d].
  rewrite (gebs2d_sized_size _ _ _ _ _ HS),
          (gebs2d_container_data _ _ _ _ _ _ _ _ _ HD).
  destruct (gebs2d_ptr_runs grid scope top (to_blacs_int n) 1 T p
              (to_blacs_int n) HT) as (act & Ha & Hr).
  exists act; split; [exact Ha|]; intros w.
  unfold exec; rewrite Hr; reflexivity.
Qed.

Lemma gebr2d_sized_runs grid scope top A T p n :
  data A = Some (T, p) -> size A = Some n -> blacs_supported T = true ->
  exists act,
    gebr2d grid scope top (Sized (Object A)) = Some act /\
    forall w,
      calls (exec act w)
      = calls w ++ [gebr2d_call T (context (grids w grid))
                      (type_string scope) (type_string top)
                      (to_blacs_int n) 1 p (to_blacs_int n)].
Proof.
  intros HD HS HT; cbn [gebr2d].
  rewrite (gebr2d_sized_size _ _ _ _ _ HS),
          (gebr2d_container_data _ _ _ _ _ _ _ _ _ HD).
  destruct (gebr2d_ptr_runs grid scope top (to_blacs_int n) 1 T p
              (to_blacs_int n) HT) as (act & Ha & Hr).
  exists act; split; [exact Ha|]; intros w.
  unfold exec; rewrite Hr; apply calls_recv.
Qed.

(** A container whose size is above the largest [blacs_int] and below
    [2^w] is announced with a negative row count and leading dimension:
    its size less [2^w]. *)
Theorem sized_overloads_negative_rows
    grid scope top (A : Container) (T : CType) (p : ptr) (n : N) :
  data A = Some (T, p) -> size A = Some n -> blacs_supported T = true ->
  blacs_int_max < Z.of_N n < 2 ^ Z.pos blacs_int_bits ->
  let m := Z.of_N n - 2 ^ Z.pos blacs_int_bits in
  m < 0 /\
  (exists act,
     gebs2d grid scope top (Sized (Object A)) = Some act /\
     forall w,
       calls (exec act w)
       = calls w ++ [gebs2d_call T (context (grids w grid))
                       (type_string scope) (type_string top) m 1 p m]) /\
  (exists act,
     gebr2d grid scope top (Sized (Object A)) = Some act /\
     forall w,
       calls (exec act w)
       = calls w ++ [gebr2d_call T (context (grids w grid))
                       (type_string scope) (type_string top) m 1 p m]).
Proof.
  intros HD HS HT Hn; cbn zeta.
  rewrite <- (to_blacs_int_wrapped n Hn).
  split; [rewrite (to_blacs_int_wrapped n Hn); lia|].
  split; [now apply gebs2d_sized_runs | now apply gebr2d_sized_runs].
Qed.

(** The library cannot tell two containers apart whose sizes differ by a
    multiple of [2^w], and can tell any other two: on the same buffer
    address, their size-based sends make the same raw call exactly when the
    sizes are congruent modulo [2^w]. *)
Theorem sized_sends_alias_modulo
    grid scope top (A B : Container) (T : CType) (p : ptr) (n m : N) :
  data A = Some (T, p) -> size A = Some n ->
  data B = Some (T, p) -> size B = Some m ->
  blacs_supported T = true ->
  exists a b,
    gebs2d grid scope top (Sized (Object A)) = Some a /\
    gebs2d grid scope top (Sized (Object B)) = Some b /\
    forall w,
      calls (exec a w) = calls (exec b w)
      <-> (Z.of_N n - Z.of_N m) mod 2 ^ Z.pos blacs_int_bits = 0.
Proof.
  intros HDA HSA HDB HSB HT.
  destruct (gebs2d_sized_runs grid scope top A T p n HDA HSA HT)
    as (a & Ha & Hra).
  destruct (gebs2d_sized_runs grid scope top B T p m HDB HSB HT)
    as (b & Hb & Hrb).
  exists a, b; split; [exact Ha|]; split; [exact Hb|]; intros w.
  rewrite Hra, Hrb, <- to_blacs_int_eq_iff; split.
  - intros E; apply app_inv_head in E; now injection E.
  - intros E; now rewrite E.
Qed.

(** ** Calls in sequence *)

Lemma exec_bind (a k : Blacs unit) (w : World) :
  exec (_ <- a ;; k) w = exec k (exec a w).
Proof. unfold exec, bind; destruct (a w); reflexivity. Qed.

Lemma is_call_one (act : Blacs unit) (w : World) :
  is_call act ->
  exists c, calls (exec act w) = calls w ++ [c] /\
            grids (exec act w) = grids w.
Proof.
  intros (grid & scope & top & uplo & diag & args & [H|[H|[H|H]]]).
  - destruct (gebs2d_some _ _ _ _ _ H) as (T & M & N & p & LDA & Hr).
    eexists; unfold exec; rewrite Hr; split; reflexivity.
  - destruct (trbs2d_some _ _ _ _ _ _ _ H) as (T & M & N & p & LDA & Hr).
    eexists; unfold exec; rewrite Hr; split; reflexivity.
  - destruct (gebr2d_some _ _ _ _ _ H) as (T & M & N & p & LDA & Hr).
    eexists; unfold exec; rewrite Hr; split;
      [apply calls_recv | apply grids_recv].
  - destruct (trbr2d_some _ _ _ _ _ _ _ H) as (T & M & N & p & LDA & Hr).
    eexists; unfold exec; rewrite Hr; split;
      [apply calls_recv | apply grids_recv].
Qed.

Lemma is_send_frame (act : Blacs unit) (w : World) :
  is_send act -> mem (exec act w) = mem w.
Proof.
  intros (grid & scope & top & uplo & diag & args & [H|H]).
  - destruct (gebs2d_some _ _ _ _ _ H) as (T & M & N & p & LDA & Hr).
    unfold exec; rewrite Hr; reflexivity.
  - destruct (trbs2d_some _ _ _ _ _ _ _ H) as (T & M & N & p & LDA & Hr).
    unfold exec; rewrite Hr; reflexivity.
Qed.

(** Calls compose without batching or dropping: a sequence of calls to
    the four operations only appends to the log, one raw call per
    statement, and touches no grid object; if all of them are sends, the
    memory of the caller is the same at the end. *)
Theorem calls_in_sequence (acts : list (Blacs unit)) :
  (Forall is_call acts ->
   forall w, exists cs,
     calls (exec (run_all acts) w) = calls w ++ cs /\
     List.length cs = List.length acts /\
     grids (exec (run_all acts) w) = grids w) /\
  (Forall is_send acts ->
   forall w, mem (exec (run_all acts) w) = mem w).
Proof.
  split.
  - induction 1 as [|a rest Ha _ IH]; intros w.
    + exists []; cbn; rewrite app_nil_r; repeat split.
    + cbn [run_all]; rewrite exec_bind.
      destruct (is_call_one a w Ha) as (c & Hc & Hg).
      destruct (IH (exec a w)) as (cs & Hcs & Hlen & Hgs).
      exists (c :: cs); rewrite Hcs, Hc, Hgs, Hg, <- app_assoc; cbn.
      repeat split; now rewrite Hlen.
  - induction 1 as [|a rest Ha _ IH]; intros w.
    + reflexivity.
    + cbn [run_all]; rewrite exec_bind, IH; now apply is_send_frame.
Qed.

End Properties.

(** * The properties on the loop-back platform *)

Section OnLoopBack.
Import LoopBack.
#[local] Existing Instance headers.
#[local] Existing Instance library.

(** ** The loop-back library *)

Lemma in_cells (M N i j : Z) :
  In (i, j) (cells M N) <-> 0 <= i < M /\ 0 <= j < N.
Proof.
  unfold cells; rewrite in_flat_map; split.
  - intros (j' & Hj & Hi); apply in_seq in Hj.
    apply in_map_iff in Hi; destruct Hi as (i' & [= <- <-] & Hi).
    apply in_seq in Hi; lia.
  - intros [Hi Hj]; exists (Z.to_nat j); split; [apply in_seq; lia|].
    apply in_map_iff; exists (Z.to_nat i); split; [|apply in_seq; lia].
    now rewrite !Z2Nat.id by lia.
Qed.

Lemma in_bytes_of (T : ctype) (A LDA : Z) (ij : Z * Z) (q : ptr) :
  In q (bytes_of T A LDA ij)
  <-> exists b, 0 <= b < sizeof T /\ q = A + offset T LDA (fst ij) (snd ij) b.
Proof.
  unfold bytes_of, offset; rewrite in_map_iff; split.
  - intros (b & <- & Hb); apply in_seq in Hb.
    exists (Z.of_nat b); split; lia.
  - intros (b & Hb & ->); exists (Z.to_nat b); split; [|apply in_seq; lia].
    rewrite Z2Nat.id by lia; lia.
Qed.

(** The bytes of a buffer at [A] are those of the buffer at [0], moved. *)
Lemma bytes_shift (T : ctype) (A LDA : Z) (cs : list (Z * Z)) :
  flat_map (bytes_of T A LDA) cs
  = map (Z.add A) (flat_map (bytes_of T 0 LDA) cs).
Proof.
  induction cs as [|ij cs IH]; [reflexivity|].
  cbn [flat_map]; rewrite map_app, IH; f_equal.
  unfold bytes_of; rewrite map_map; apply map_ext; intros b; lia.
Qed.

(** Bytes of different entries of a buffer do not overlap, as long as
    the leading dimension covers a column. *)
Lemma offset_inj (T : ctype) (M LDA i j b i' j' b' : Z) :
  M <= LDA -> 0 <= i < M -> 0 <= i' < M ->
  0 <= b < sizeof T -> 0 <= b' < sizeof T ->
  offset T LDA i j b = offset T LDA i' j' b' ->
  i = i' /\ j = j' /\ b = b'.
Proof.
  unfold offset; intros HM Hi Hi' Hb Hb' E.
  assert (D : i + j * LDA = ((i + j * LDA) * sizeof T + b) / sizeof T)
    by (apply Z.div_unique_pos with b; lia).
  assert (D' : i' + j' * LDA = ((i' + j' * LDA) * sizeof T + b') / sizeof T)
    by (apply Z.div_unique_pos with b'; lia).
  rewrite E, <- D' in D.
  assert (b = b') by nia; subst b'.
  assert (R : i = (i + j * LDA) mod LDA)
    by (apply Z.mod_unique_pos with j; lia).
  assert (R' : i' = (i' + j' * LDA) mod LDA)
    by (apply Z.mod_unique_pos with j'; lia).
  rewrite D, <- R' in R; subst i'.
  repeat split; apply Z.mul_reg_r with LDA; lia.
Qed.

(** A receive stores at the addresses of its region and nowhere else. *)
Lemma store_all_frame (ps : list ptr) (bs : list Byte.byte) (m : Mem)
    (q : ptr) :
  ~ In q ps -> fst (store_all m ps bs) q = m q.
Proof.
  revert bs m; induction ps as [|p ps IH]; intros [|b bs] m Hq;
    try reflexivity.
  cbn [store_all]; rewrite IH by (intros Hin; apply Hq; now right).
  unfold store; destruct (Z.eqb_spec q p); [|reflexivity].
  exfalso; apply Hq; now left.
Qed.

(** Storing at [B + o] the byte found for [o], for every offset [o] of a
    list: afterwards each address holds the byte of the offset that names
    it, or is as it was if no offset does. *)
Lemma store_all_map (B : ptr) (f : Z -> Byte.byte) (offs : list Z) (m : Mem)
    (q : ptr) :
  let m' := fst (store_all m (map (Z.add B) offs) (map f offs)) in
  (exists o, In o offs /\ q = B + o /\ m' q = f o) \/
  ((forall o, In o offs -> q <> B + o) /\ m' q = m q).
Proof.
  cbn zeta; revert m; induction offs as [|o offs IH]; intros m.
  - right; split; [intros o []|reflexivity].
  - cbn [map store_all].
    destruct (IH (store m (B + o) (f o))) as [(o' & Hin & Hq & Hm)|[Hout Hm]].
    + left; exists o'; split; [now right|now split].
    + unfold store in Hm; destruct (Z.eqb_spec q (B + o)) as [Hq|Hq].
      * left; exists o; split; [now left|now split].
      * right; split; [|exact Hm].
        intros o' [<-|Hin]; [exact Hq|now apply Hout].
Qed.

Lemma selected_tokens (uplo : Triangle) (diag : Diagonal) (ij : Z * Z) :
  selected (type_string uplo) (type_string diag) ij
  = in_triangle uplo diag (fst ij) (snd ij).
Proof. destruct ij, uplo, diag; reflexivity. Qed.

(** C6.  On the loop-back transport, for every supported element type
    and every [M], [N], [LDA]: when one process calls [gebs2d] on the
    buffer at [A] with no message pending, and a peer that shares the
    transport and nothing else calls [gebr2d] with the same shape on its
    buffer at [B], every byte of the [M] by [N] region of the receive
    buffer is, after the receive, the byte at the same place of the sent
    buffer. *)
Theorem general_round_trip
    (gs gr : GridRef) (scope : Scope) (top : topology) (T : ctype)
    (M N LDA : blacs_int) (A B : ptr) (ws wr : World) :
  supported T = true -> net ws = [] ->
  exists s r,
    gebs2d gs scope top (Shaped M N (Pointer T A) LDA) = Some s /\
    gebr2d gr scope top (Shaped M N (Pointer T B) LDA) = Some r /\
    forall i j b,
      0 <= i < M -> 0 <= j < N -> 0 <= b < sizeof T ->
      mem (exec r (deliver (exec s ws) wr)) (B + offset T LDA i j b)
      = mem ws (A + offset T LDA i j b).
Proof.
  intros HT Hnet.
  destruct (gebs2d_ptr_runs (hdr := headers) (lib := library)
              gs scope top M N T A LDA HT) as (s & Hs & Hrs).
  destruct (gebr2d_ptr_runs (hdr := headers) (lib := library)
              gr scope top M N T B LDA HT) as (r & Hr & Hrr).
  exists s, r; split; [exact Hs|]; split; [exact Hr|].
  intros i j b Hi Hj Hb.
  unfold exec at 1; rewrite Hrr.
  change (snd (wrappers.gebr2d ?T' ?c ?S' ?P' ?M' ?N' ?B' ?L' ?w))
    with (exec (wrappers.recv (gebr2d_call T' c S' P' M' N' B' L')) w).
  rewrite mem_recv.
  unfold deliver at 2 3; cbn [mem net].
  unfold exec; rewrite Hrs; cbn [wrappers.gebs2d wrappers.send snd net].
  rewrite Hnet; cbn [blacs_send blacs_recv library app region].
  rewrite (bytes_shift T A), (bytes_shift T B), map_map.
  destruct (store_all_map B (fun o => mem ws (A + o))
              (flat_map (bytes_of T 0 LDA) (cells M N)) (mem wr)
              (B + offset T LDA i j b))
    as [(o & _ & Ho & Hm)|[Hout _]].
  - refine (eq_trans Hm _); f_equal; lia.
  - exfalso; apply (Hout (offset T LDA i j b)); [|reflexivity].
    apply in_flat_map; exists (i, j); split; [now apply in_cells|].
    apply in_bytes_of; exists b; split; [exact Hb|cbn; lia].
Qed.

(** C7.  On the loop-back library, for every triangle and diagonal and
    every supported element type: after [trbr2d], an address that is not a
    byte of an entry of the selected triangle (the diagonal counted in or
    out as selected) holds what it held before; in particular, when the
    leading dimension covers a column, so does every byte of every entry
    of the [M] by [N] buffer outside the triangle. *)
Theorem triangular_receive_frame
    (grid : GridRef) (scope : Scope) (top : topology) (uplo : Triangle)
    (diag : Diagonal) (T : ctype) (M N LDA : blacs_int) (B : ptr)
    (w : World) :
  supported T = true ->
  exists r,
    trbr2d grid scope top uplo diag (Shaped M N (Pointer T B) LDA) = Some r /\
    (forall q,
       (forall i j b,
          0 <= i < M -> 0 <= j < N -> 0 <= b < sizeof T ->
          in_triangle uplo diag i j = true -> q <> B + offset T LDA i j b) ->
       mem (exec r w) q = mem w q) /\
    (M <= LDA ->
     forall i j b,
       0 <= i < M -> 0 <= j < N -> 0 <= b < sizeof T ->
       in_triangle uplo diag i j = false ->
       mem (exec r w) (B + offset T LDA i j b)
       = mem w (B + offset T LDA i j b)).
Proof.
  intros HT.
  destruct (trbr2d_ptr_runs (hdr := headers) (lib := library)
              grid scope top uplo diag M N T B LDA HT) as (r & Hr & Hrr).
  exists r; split; [exact Hr|].
  assert (Hframe : forall q,
    (forall i j b,
       0 <= i < M -> 0 <= j < N -> 0 <= b < sizeof T ->
       in_triangle uplo diag i j = true -> q <> B + offset T LDA i j b) ->
    mem (exec r w) q = mem w q).
  { intros q Hq.
    unfold exec; rewrite Hrr.
    change (snd (wrappers.trbr2d ?T' ?c ?S' ?P' ?U' ?D' ?M' ?N' ?B' ?L' ?w'))
      with (exec (wrappers.recv
                    (trbr2d_call T' c S' P' U' D' M' N' B' L')) w').
    rewrite mem_recv; cbn [blacs_recv library region].
    apply store_all_frame; intros Hin.
    apply in_flat_map in Hin; destruct Hin as ([i j] & Hsel & Hin).
    apply filter_In in Hsel; destruct Hsel as [Hc Hsel].
    apply in_cells in Hc; destruct Hc as [Hi Hj].
    apply in_bytes_of in Hin; destruct Hin as (b & Hb & ->).
    rewrite selected_tokens in Hsel.
    exact (Hq i j b Hi Hj Hb Hsel eq_refl). }
  split; [exact Hframe|].
  intros HM i j b Hi Hj Hb Hout; apply Hframe.
  intros i' j' b' Hi' Hj' Hb' Hsel E.
  apply Z.add_reg_l in E.
  destruct (offset_inj T M LDA i j b i' j' b' HM Hi Hi' Hb Hb' E)
    as (<- & <- & _).
  congruence.
Qed.

(** The model tells a send from a receive: a double sent from address 64
    and received at address 128 changes the byte at 128. *)
Example loop_back_receive_stores :
  exists s r,
    gebs2d 0%nat All DefaultTopology (Shaped 1 1 (Pointer c_double 64) 1)
    = Some s /\
    gebr2d 0%nat All DefaultTopology (Shaped 1 1 (Pointer c_double 128) 1)
    = Some r /\
    mem world0 128 = Byte.x00 /\
    mem (exec r (exec s world0)) 128 = Byte.x2a /\
    mem (exec r (exec s world0)) 129 = Byte.x07.
Proof. do 2 eexists; repeat split. Qed.

(** C1 at a concrete call with a negative row count, the null pointer
    and a zero leading dimension: they reach the library as they are. *)
Lemma pointer_general_forwards_once_witness :
  exists act,
    gebs2d 0%nat Row IncreasingRing (Shaped (-1) 3 (Pointer c_double 0) 0)
    = Some act /\
    calls (exec act world0) = [gebs2d_call c_double 0 "R" "I" (-1) 3 0 0].
Proof.
  destruct (pointer_general_forwards_once (hdr := headers) (lib := library)
              0%nat Row IncreasingRing (-1) 3 c_double 0 0 eq_refl)
    as [(act & Ha & Hr) _].
  exists act; split; [exact Ha | exact (proj2 (Hr world0))].
Defined.

(** C2 at a vector of three doubles. *)
Lemma sized_call_is_shaped_call_witness :
  gebs2d 0%nat All DefaultTopology (Sized (Object vec3))
  = gebs2d 0%nat All DefaultTopology (Shaped 3 1 (Object vec3) 3).
Proof.
  exact (proj1 (sized_call_is_shaped_call (hdr := headers) (lib := library)
              0%nat All DefaultTopology
                  vec3 3%N eq_refl)).
Defined.

(** C4, the claim as the spec has it, fails on the triangular operations:
    a vector of three doubles has a [size()], and passing it alone to
    [trbs2d] or [trbr2d] does not compile, while the same vector with the
    shape spelled out does. *)
Lemma sized_overload_triangular_counterexample :
  has_size_member_v vec3 = true /\
  trbs2d 0%nat All DefaultTopology Upper NonUnit (Sized (Object vec3)) = None /\
  trbr2d 0%nat All DefaultTopology Upper NonUnit (Sized (Object vec3)) = None /\
  trbs2d 0%nat All DefaultTopology Upper NonUnit (Shaped 3 1 (Object vec3) 3)
  <> None /\
  trbr2d 0%nat All DefaultTopology Upper NonUnit (Shaped 3 1 (Object vec3) 3)
  <> None.
Proof. repeat split; discriminate. Qed.

(** C4 as amended, at the same vector. *)
Lemma sized_overload_general_only_witness :
  (exists act,
     gebr2d 0%nat Column DefaultTopology (Sized (Object vec3)) = Some act /\
     calls (exec act world0) = [gebr2d_call c_double 0 "C" " " 3 1 64 3]) /\
  trbr2d 0%nat Column DefaultTopology Lower Unit (Sized (Object vec3)) = None.
Proof.
  destruct (sized_overload_general_only (hdr := headers) (lib := library)
              0%nat Column DefaultTopology Lower
              Unit vec3 c_double 64 3%N eq_refl eq_refl eq_refl)
    as (_ & (act & Ha & Hr) & _ & Hnone).
  split; [|exact (Hnone (Object vec3))].
  exists act; split; [exact Ha | exact (Hr world0)].
Defined.

(** C8 at the same vector. *)
Lemma container_call_is_pointer_call_witness :
  trbr2d 0%nat All DefaultTopology Upper NonUnit (Shaped 3 3 (Object vec3) 3)
  = trbr2d 0%nat All DefaultTopology Upper NonUnit
      (Shaped 3 3 (Pointer c_double 64) 3).
Proof.
  exact (proj2 (proj2 (proj2
    (container_call_is_pointer_call (hdr := headers) (lib := library)
              0%nat All DefaultTopology Upper NonUnit
       3 3 vec3 3 c_double 64 eq_refl)))).
Defined.

(** C9 at a vector of [2^31] doubles and a 32-bit [blacs_int]: the row
    count the library is told is a 32-bit signed number congruent to
    [2^31], that is [-2^31]. *)
Lemma sized_overloads_wrap_large_size_witness :
  exists m : Z,
    (m - 2147483648) mod 4294967296 = 0 /\
    -2147483648 <= m <= 2147483647 /\
    exists act,
      gebs2d 0%nat All DefaultTopology (Sized (Object vec_huge)) = Some act /\
      calls (exec act world0) = [gebs2d_call c_double 0 "A" " " m 1 64 m].
Proof.
  destruct (sized_overloads_wrap_large_size (hdr := headers) (lib := library)
              0%nat All DefaultTopology vec_huge c_double 64 2147483648%N
              eq_refl eq_refl eq_refl eq_refl)
    as (m & Hcong & Hrange & _ & (act & Ha & Hr) & _).
  exists m; split; [exact Hcong|]; split; [exact Hrange|].
  exists act; split; [exact Ha | exact (Hr world0)].
Defined.

(** C10 at a triangular send of the same vector. *)
Lemma send_leaves_buffer_and_grid_witness :
  exists act,
    trbs2d 0%nat All DefaultTopology Lower NonUnit
      (Shaped 3 1 (Object vec3) 3) = Some act /\
    mem (exec act world0) = mem world0 /\
    grids (exec act world0) = grids world0.
Proof.
  eexists; split; [reflexivity|].
  eapply (send_leaves_buffer_and_grid (hdr := headers) (lib := library))
    with (grid := 0%nat) (scope := All)
    (top := DefaultTopology) (uplo := Lower) (diag := NonUnit)
    (args := Shaped 3 1 (Object vec3) 3).
  right; reflexivity.
Defined.

(** The triangular forwarding at a receive of the strict lower triangle. *)
Lemma pointer_triangular_forwards_once_witness :
  exists act,
    trbr2d 0%nat Column DecreasingRing Lower Unit
      (Shaped 3 3 (Pointer c_float 64) 3) = Some act /\
    calls (exec act world0)
    = [trbr2d_call c_float 0 "C" "D" "L" "U" 3 3 64 3].
Proof.
  destruct (pointer_triangular_forwards_once (hdr := headers)
              (lib := library) 0%nat Column DecreasingRing Lower Unit 3 3
              c_float 64 3 eq_refl) as [_ (act & Ha & Hr)].
  exists act; split; [exact Ha | exact (Hr world0)].
Defined.

(** A vector of three doubles is announced with three rows. *)
Lemma sized_overloads_keep_small_size_witness :
  exists act,
    gebs2d 0%nat All DefaultTopology (Sized (Object vec3)) = Some act /\
    calls (exec act world0) = [gebs2d_call c_double 0 "A" " " 3 1 64 3].
Proof.
  assert (Hsmall : Z.of_N 3 <= @blacs_int_max headers)
    by (intro Hgt; discriminate Hgt).
  destruct (sized_overloads_keep_small_size (hdr := headers)
              (lib := library) 0%nat All DefaultTopology vec3 c_double 64
              3%N eq_refl eq_refl eq_refl Hsmall) as [(act & Ha & Hr) _].
  exists act; split; [exact Ha | exact (Hr world0)].
Defined.

(** One raw call, at a receive into the vector. *)
Lemma every_call_is_one_raw_call_witness :
  exists act c,
    gebr2d 0%nat All DefaultTopology (Sized (Object vec3)) = Some act /\
    calls (exec act world0) = [c].
Proof.
  eexists.
  destruct (every_call_is_one_raw_call (hdr := headers) (lib := library)
              0%nat All DefaultTopology Upper Unit (Sized (Object vec3)) _
              world0 (or_intror (or_intror (or_introl eq_refl))))
    as (c & Hc & _).
  exists c; split; [reflexivity | exact Hc].
Defined.

(** A set of three doubles cannot be passed alone. *)
Lemma sized_call_needs_data_witness :
  gebs2d 0%nat All DefaultTopology (Sized (Object set3)) = None.
Proof.
  exact (proj1 (sized_call_needs_data (hdr := headers) (lib := library)
                  0%nat All DefaultTopology set3 c_double 0 eq_refl)).
Defined.

(** Two grid objects with the context handle 0: a receive into the
    vector runs alike on either. *)
Lemma grid_matters_through_context_only_witness :
  option_map (fun act => act world0)
    (gebr2d 0%nat All DefaultTopology (Sized (Object vec3)))
  = option_map (fun act => act world0)
      (gebr2d 1%nat All DefaultTopology (Sized (Object vec3))).
Proof.
  exact (proj1 (proj2 (proj2
    (grid_matters_through_context_only (hdr := headers) (lib := library)
       0%nat 1%nat All DefaultTopology Upper Unit (Sized (Object vec3))
       world0 eq_refl)))).
Defined.

(** A triangular receive into the vector: memory and transport after it
    are the library's answer to the one raw call. *)
Lemma receive_stores_what_library_returns_witness :
  exists act c,
    trbr2d 0%nat Row DefaultTopology Upper NonUnit
      (Shaped 3 1 (Object vec3) 3) = Some act /\
    calls (exec act world0) = [c] /\
    (mem (exec act world0), net (exec act world0))
    = blacs_recv c (mem world0) (net world0).
Proof.
  eexists.
  destruct (receive_stores_what_library_returns (hdr := headers)
              (lib := library) 0%nat Row DefaultTopology Upper NonUnit
              (Shaped 3 1 (Object vec3) 3) _ world0 (or_intror eq_refl))
    as (c & Hc & Hm).
  exists c; split; [reflexivity|]; split; [exact Hc | exact Hm].
Defined.

(** A vector of [2^31] doubles is announced with [-2^31] rows. *)
Lemma sized_overloads_negative_rows_witness :
  exists act,
    gebs2d 0%nat All DefaultTopology (Sized (Object vec_huge)) = Some act /\
    calls (exec act world0)
    = [gebs2d_call c_double 0 "A" " " (-2147483648) 1 64 (-2147483648)].
Proof.
  destruct (sized_overloads_negative_rows (hdr := headers) (lib := library)
              0%nat All DefaultTopology vec_huge c_double 64 2147483648%N
              eq_refl eq_refl eq_refl (conj eq_refl eq_refl))
    as (_ & (act & Ha & Hr) & _).
  exists act; split; [exact Ha | exact (Hr world0)].
Defined.

(** Vectors of 3 and of [2^32 + 3] doubles at the same address are sent
    with the same raw call. *)
Lemma sized_sends_alias_modulo_witness :
  exists a b,
    gebs2d 0%nat All DefaultTopology (Sized (Object vec3)) = Some a /\
    gebs2d 0%nat All DefaultTopology (Sized (Object vec_alias)) = Some b /\
    calls (exec a world0) = calls (exec b world0).
Proof.
  destruct (sized_sends_alias_modulo (hdr := headers) (lib := library)
              0%nat All DefaultTopology vec3 vec_alias c_double 64 3%N
              4294967299%N eq_refl eq_refl eq_refl eq_refl eq_refl)
    as (a & b & Ha & Hb & Hiff).
  exists a, b; split; [exact Ha|]; split; [exact Hb|].
  apply (Hiff world0); reflexivity.
Defined.

(** A send of the vector followed by a receive into it: two raw calls. *)
Lemma calls_in_sequence_witness :
  exists s r cs,
    gebs2d 0%nat All DefaultTopology (Sized (Object vec3)) = Some s /\
    gebr2d 0%nat All DefaultTopology (Sized (Object vec3)) = Some r /\
    calls (exec (run_all [s; r]) world0) = calls world0 ++ cs /\
    List.length cs = 2%nat.
Proof.
  destruct (gebs2d_sized_runs (hdr := headers) (lib := library) 0%nat All
              DefaultTopology vec3 c_double 64 3%N eq_refl eq_refl eq_refl)
    as (s & Ha & _).
  destruct (gebr2d_sized_runs (hdr := headers) (lib := library) 0%nat All
              DefaultTopology vec3 c_double 64 3%N eq_refl eq_refl eq_refl)
    as (r & Hb & _).
  assert (Hs : @is_call headers library s).
  { exists 0%nat, All, DefaultTopology, Upper, Unit, (Sized (Object vec3)).
    left; exact Ha. }
  assert (Hr : @is_call headers library r).
  { exists 0%nat, All, DefaultTopology, Upper, Unit, (Sized (Object vec3)).
    right; right; left; exact Hb. }
  destruct (proj1 (calls_in_sequence (hdr := headers) (lib := library) _)
              (Forall_cons _ Hs (Forall_cons _ Hr (Forall_nil _))) world0)
    as (cs & Hcs & Hlen & _).
  exists s, r, cs; split; [exact Ha|]; split; [exact Hb|].
  split; [exact Hcs | exact Hlen].
Defined.

(** C6 at one double sent from address 64 and received at address 128:
    the second byte arrives. *)
Lemma general_round_trip_witness :
  exists s r,
    gebs2d 0%nat All DefaultTopology (Shaped 1 1 (Pointer c_double 64) 1)
    = Some s /\
    gebr2d 1%nat All DefaultTopology (Shaped 1 1 (Pointer c_double 128) 1)
    = Some r /\
    mem (exec r (deliver (exec s world0) world0)) 129 = mem world0 65 /\
    mem world0 65 = Byte.x07.
Proof.
  destruct (general_round_trip 0%nat 1%nat All DefaultTopology c_double
              1 1 1 64 128 world0 world0 eq_refl eq_refl)
    as (s & r & Hs & Hr & Hrt).
  exists s, r; split; [exact Hs|]; split; [exact Hr|].
  split; [|reflexivity].
  apply (Hrt 0 0 1); cbn; lia.
Defined.

(** C7 at a 2 by 2 matrix of ints at address 64, upper triangle with
    its diagonal: the entry below the diagonal, at byte 68, is as it
    was. *)
Lemma triangular_receive_frame_witness :
  exists r,
    trbr2d 0%nat All DefaultTopology Upper NonUnit
      (Shaped 2 2 (Pointer c_int 64) 2) = Some r /\
    mem (exec r world_pending) 68 = mem world_pending 68.
Proof.
  destruct (triangular_receive_frame 0%nat All DefaultTopology Upper NonUnit
              c_int 2 2 2 64 world_pending eq_refl)
    as (r & Hr & _ & Hcell).
  exists r; split; [exact Hr|].
  apply (Hcell (Z.le_refl 2) 1 0 0); cbn; try lia; reflexivity.
Defined.


End OnLoopBack.
